(** * Your-Rich-Dad: the four calculators of the budgeting application

    A shallow embedding of the numeric core of the React application:

    - [App.calculateBudget]  (src/App.tsx, lines 22-70): the tax estimate and
      the 35/15/20/30 allocation template;
    - [App.updateAllocation] (src/App.tsx, lines 72-137): the rebalancer;
    - [InvestmentChart.data] (the [data] memo of the InvestmentChart
      component, src/components/AiAdvisor.tsx, lines 244-273): the dual-track
      growth simulator;
    - [HousingSearch.mortgageData] (src/components/HousingSearch.tsx, lines
      39-98): the amortization simulator.

    A JavaScript [number] is an IEEE 754 binary64 value.  The program text is
    embedded once, over an interface [Number] of the operations it uses, and
    read at two instances:

    - [binary64]: Rocq's primitive floats, which are binary64 with
      round-to-nearest-even, i.e. what the program computes with;
    - [exact]: the rationals [Q], the real-number reading in which the
      universally quantified statements about the calculators are proved.

    Loop counters and month counts are integers far below 2^53, where binary64
    arithmetic is exact; they are embedded as [nat]. *)

From Stdlib Require Import ZArith QArith Qround Lqa Lia List Bool String.
From Stdlib Require Import DecimalString Floats Uint63.
Import ListNotations.

Set Implicit Arguments.

(* ------------------------------------------------------------------------- *)
(** ** The number interface *)

Class Number (num : Type) : Type := {
  lit : Q -> num;                 (* a decimal literal of the program text *)
  add : num -> num -> num;
  sub : num -> num -> num;
  mul : num -> num -> num;
  div : num -> num -> num;
  ltb : num -> num -> bool;       (* a < b *)
  leb : num -> num -> bool;       (* a <= b *)
  Math_max : num -> num -> num;
  Math_min : num -> num -> num;
  Math_abs : num -> num;
  Math_round : num -> num
}.

Declare Scope js_scope.
Delimit Scope js_scope with js.
Infix "+" := add : js_scope.
Infix "-" := sub : js_scope.
Infix "*" := mul : js_scope.
Infix "/" := div : js_scope.
Infix "<?" := ltb (at level 70, no associativity) : js_scope.
Infix "<=?" := leb (at level 70, no associativity) : js_scope.
Notation "a >? b" := (ltb b a) (at level 70, no associativity) : js_scope.
Notation "a >=? b" := (leb b a) (at level 70, no associativity) : js_scope.

(** *** The exact instance *)

Definition Qltb (a b : Q) : bool := negb (Qle_bool b a).
Definition Qmax' (a b : Q) : Q := if Qle_bool a b then b else a.
Definition Qmin' (a b : Q) : Q := if Qle_bool a b then a else b.
Definition Qabs' (a : Q) : Q := if Qle_bool 0 a then a else Qopp a.
(** [Math.round]: the nearest integer, a tie going towards +infinity. *)
Definition Qround' (a : Q) : Q := inject_Z (Qfloor (a + (1 # 2))).

#[export] Instance exact : Number Q := {|
  lit := fun q => q;
  add := Qplus;
  sub := Qminus;
  mul := Qmult;
  div := Qdiv;
  ltb := Qltb;
  leb := Qle_bool;
  Math_max := Qmax';
  Math_min := Qmin';
  Math_abs := Qabs';
  Math_round := Qround'
|}.

(** *** The binary64 instance *)

Definition float_of_Z (z : Z) : float :=
  if (z <? 0)%Z then PrimFloat.opp (PrimFloat.of_uint63 (Uint63.of_Z (- z)))
  else PrimFloat.of_uint63 (Uint63.of_Z z).

(** A decimal literal [n/d] with [n], [d] below 2^53 is read as the binary64
    nearest to it; the correctly rounded quotient of the two integers is that
    value. *)
Definition float_lit (q : Q) : float :=
  PrimFloat.div (float_of_Z (Qnum q)) (float_of_Z (Zpos (Qden q))).

Definition float_is_neg_zero (a : float) : bool :=
  PrimFloat.is_zero a && PrimFloat.get_sign a.

(** [Math.max], [Math.min]: NaN if an argument is NaN, and -0 below +0. *)
Definition float_max (a b : float) : float :=
  if PrimFloat.is_nan a || PrimFloat.is_nan b then PrimFloat.nan
  else if PrimFloat.ltb a b then b
  else if PrimFloat.ltb b a then a
  else if float_is_neg_zero a then b else a.

Definition float_min (a b : float) : float :=
  if PrimFloat.is_nan a || PrimFloat.is_nan b then PrimFloat.nan
  else if PrimFloat.ltb a b then a
  else if PrimFloat.ltb b a then b
  else if float_is_neg_zero a then a else b.

Definition two52 : float := float_of_Z (2 ^ 52).

(** The floor of a binary64 below 2^52 in magnitude: adding and removing 2^52
    rounds to an integer, which is then corrected downwards. *)
Definition float_floor (x : float) : float :=
  if PrimFloat.ltb (PrimFloat.abs x) two52 then
    let t := if PrimFloat.leb PrimFloat.zero x
             then PrimFloat.sub (PrimFloat.add x two52) two52
             else PrimFloat.add (PrimFloat.sub x two52) two52 in
    if PrimFloat.ltb x t then PrimFloat.sub t PrimFloat.one else t
  else x.

(** [Math.round]: values of magnitude 2^52 and above, infinities and NaN are
    their own rounding; below, the fractional part [x - floor x] is exact.
    (The sign of a zero result is not tracked: no comparison of the program
    depends on it.) *)
Definition float_round (x : float) : float :=
  if PrimFloat.ltb (PrimFloat.abs x) two52 then
    let f := float_floor x in
    if PrimFloat.leb (float_lit (1 # 2)) (PrimFloat.sub x f)
    then PrimFloat.add f PrimFloat.one else f
  else x.

#[export] Instance binary64 : Number float := {|
  lit := float_lit;
  add := PrimFloat.add;
  sub := PrimFloat.sub;
  mul := PrimFloat.mul;
  div := PrimFloat.div;
  ltb := PrimFloat.ltb;
  leb := PrimFloat.leb;
  Math_max := float_max;
  Math_min := float_min;
  Math_abs := PrimFloat.abs;
  Math_round := float_round
|}.

(* ------------------------------------------------------------------------- *)
(** ** Data model (the interfaces of the types module) *)

Record Taxes (num : Type) : Type := {
  federal : num;
  state : num;
  fica : num;
  total : num
}.

Record Allocations (num : Type) : Type := {
  housing : num;
  food : num;
  general : num;
  savings : num
}.

Record BudgetBreakdown (num : Type) : Type := {
  netMonthlyIncome : num;
  taxes : Taxes num;
  allocations : Allocations num
}.

(** [keyof BudgetBreakdown['allocations']] *)
Inductive Category : Type := Housing | Food | General | Savings.

Definition Category_eqb (a b : Category) : bool :=
  match a, b with
  | Housing, Housing | Food, Food | General, General | Savings, Savings => true
  | _, _ => false
  end.

Module App.
Section Program.

Context {num : Type} {N : Number num}.
Local Open Scope js_scope.

(* ------------------------------------------------------------------------- *)
(** ** Tax estimator and allocation template: [calculateBudget] *)

(** [Math.max(0, income - 14600)] *)
Definition taxableIncome (income : num) : num :=
  Math_max (lit 0) (income - lit 14600).

(** The bracket chain; [federalTax] starts at 0 and is increased once. *)
Definition federalTax (taxable : num) : num :=
  if taxable >? lit 609350 then lit 0 + ((taxable - lit 609350) * lit 0.37 + lit 183647)
  else if taxable >? lit 243725 then lit 0 + ((taxable - lit 243725) * lit 0.35 + lit 55678.5)
  else if taxable >? lit 191950 then lit 0 + ((taxable - lit 191950) * lit 0.32 + lit 39110.5)
  else if taxable >? lit 100525 then lit 0 + ((taxable - lit 100525) * lit 0.24 + lit 17168.5)
  else if taxable >? lit 47150 then lit 0 + ((taxable - lit 47150) * lit 0.22 + lit 5426)
  else if taxable >? lit 11600 then lit 0 + ((taxable - lit 11600) * lit 0.12 + lit 1160)
  else lit 0 + taxable * lit 0.10.

(** The tax part of [calculateBudget].  [baseRate] is [stateInfo.baseRate],
    looked up in the [US_STATES] table of the constants module; the table is
    not part of the embedded sources, so the rate is an input. *)
Definition estimateTax (income baseRate : num) : Taxes num :=
  let taxable := taxableIncome income in
  let federalTax := federalTax taxable in
  let fica := income * lit 0.0765 in
  let stateTax := Math_max (lit 0) ((income - lit 14600) * baseRate) in
  let totalTax := federalTax + stateTax + fica in
  {| federal := federalTax; state := stateTax; fica := fica; total := totalTax |}.

Definition calculateBudget (income baseRate : num) : BudgetBreakdown num :=
  let t := estimateTax income baseRate in
  let netIncome := income - total t in
  let netMonthly := netIncome / lit 12 in
  {| netMonthlyIncome := netMonthly;
     taxes := t;
     allocations := {| housing := netMonthly * lit 0.35;
                       food := netMonthly * lit 0.15;
                       general := netMonthly * lit 0.20;
                       savings := netMonthly * lit 0.30 |} |}.

(* ------------------------------------------------------------------------- *)
(** ** Allocation rebalancer: [updateAllocation] *)

(** [allocations[c]] and [allocations[c] = v] *)
Definition alloc_get (c : Category) (a : Allocations num) : num :=
  match c with
  | Housing => housing a
  | Food => food a
  | General => general a
  | Savings => savings a
  end.

Definition alloc_set (c : Category) (v : num) (a : Allocations num) : Allocations num :=
  match c with
  | Housing => {| housing := v; food := food a; general := general a; savings := savings a |}
  | Food => {| housing := housing a; food := v; general := general a; savings := savings a |}
  | General => {| housing := housing a; food := food a; general := v; savings := savings a |}
  | Savings => {| housing := housing a; food := food a; general := general a; savings := v |}
  end.

Definition withdrawalOrder : list Category := [Savings; General; Food; Housing].
Definition depositOrder : list Category := [Savings; General].

(** The loop [for (const source of withdrawalOrder)], from the state
    [(newAllocations, remainingDiff)]; a [continue] goes on with the rest of
    the order, the [break] returns the state. *)
Fixpoint withdraw (category : Category) (order : list Category)
    (newAllocations : Allocations num) (remainingDiff : num)
  : Allocations num * num :=
  match order with
  | [] => (newAllocations, remainingDiff)
  | source :: rest =>
      if Category_eqb source category
      then withdraw category rest newAllocations remainingDiff
      else if Math_abs remainingDiff <? lit 0.001
      then (newAllocations, remainingDiff)
      else
        let available := alloc_get source newAllocations in
        if available <=? lit 0
        then withdraw category rest newAllocations remainingDiff
        else
          let toTake := Math_min available remainingDiff in
          withdraw category rest
            (alloc_set source (available - toTake) newAllocations)
            (remainingDiff - toTake)
  end.

(** The loop [for (const target of depositOrder)]: the first target that is
    not the edited category receives everything, then [break]. *)
Fixpoint deposit (category : Category) (order : list Category)
    (newAllocations : Allocations num) (moneyToGive : num) : Allocations num :=
  match order with
  | [] => newAllocations
  | target :: rest =>
      if Category_eqb target category
      then deposit category rest newAllocations moneyToGive
      else alloc_set target (alloc_get target newAllocations + moneyToGive) newAllocations
  end.

(** [Object.values(newAllocations)], in the key order of the object literal
    of [calculateBudget], which the spread copies keep. *)
Definition Object_values (a : Allocations num) : list num :=
  [housing a; food a; general a; savings a].

(** [Object.values(newAllocations).reduce((a, b) => a + b, 0)] *)
Definition allocationSum (a : Allocations num) : num :=
  fold_left add (Object_values a) (lit 0).

(** The final sanity check of [updateAllocation]. *)
Definition finalCorrection (netMonthlyIncome : num) (newAllocations : Allocations num)
  : Allocations num :=
  let sum := allocationSum newAllocations in
  let error := netMonthlyIncome - sum in
  if Math_abs error >? lit 0.001
  then alloc_set Savings (savings newAllocations + error) newAllocations
  else newAllocations.

(** [updateAllocation] as a function from the component state [budgetData] to
    the state after the call: a [return] without [setBudgetData] leaves the
    state as it is.  (The state is [null] only before the first
    [calculateBudget]; the controls that call [updateAllocation] are rendered
    only when it is not.) *)
Definition updateAllocation (budgetData : BudgetBreakdown num)
    (category : Category) (newVal : num) : BudgetBreakdown num :=
  let allocations := allocations budgetData in
  let netMonthlyIncome := netMonthlyIncome budgetData in
  if netMonthlyIncome <=? lit 0 then budgetData
  else
    let safeVal := Math_max (lit 0) (Math_min newVal netMonthlyIncome) in
    let currentVal := alloc_get category allocations in
    let diff := safeVal - currentVal in
    if Math_abs diff <? lit 0.001 then budgetData
    else
      let newAllocations := alloc_set category safeVal allocations in
      let remainingDiff := diff in
      let newAllocations :=
        if remainingDiff >? lit 0
        then fst (withdraw category withdrawalOrder newAllocations remainingDiff)
        else deposit category depositOrder newAllocations (Math_abs remainingDiff) in
      {| netMonthlyIncome := netMonthlyIncome;
         taxes := taxes budgetData;
         allocations := finalCorrection netMonthlyIncome newAllocations |}.

End Program.
End App.

(** [`Year ${n}`] for a non-negative integer [n]. *)
Definition yearLabel (n : nat) : string :=
  ("Year " ++ NilEmpty.string_of_uint (Nat.to_uint n))%string.

(* ------------------------------------------------------------------------- *)
(** ** Dual-track growth simulator: the [data] memo of [InvestmentChart] *)

Module InvestmentChart.

Record Point (num : Type) : Type := {
  year : string;
  investAmount : num;
  bankAmount : num;
  difference : num
}.

Section Program.

Context {num : Type} {N : Number num}.
Local Open Scope js_scope.

Definition years : nat := 30.

(** The component's inputs: the prop [monthlyContribution] and the three
    pieces of slider state. *)
Variables (monthlyContribution investRatio : num).
Variables (investReturnRatePercent bankReturnRatePercent : num).

Definition monthlyInvest : num := monthlyContribution * investRatio.
Definition monthlyBank : num := monthlyContribution * (lit 1 - investRatio).
Definition investRateDecimal : num := investReturnRatePercent / lit 100.
Definition bankRateDecimal : num := bankReturnRatePercent / lit 100.

(** "Compound for next year" *)
Definition compoundInvest (currentInvestAmount : num) : num :=
  (currentInvestAmount + (monthlyInvest * lit 12)) * (lit 1 + investRateDecimal).
Definition compoundBank (currentBankAmount : num) : num :=
  (currentBankAmount + (monthlyBank * lit 12)) * (lit 1 + bankRateDecimal).

(** The point pushed for [year] at the current amounts. *)
Definition point (year : nat) (currentInvestAmount currentBankAmount : num) : Point num :=
  {| year := yearLabel year;
     investAmount := Math_round currentInvestAmount;
     bankAmount := Math_round currentBankAmount;
     difference := Math_round (currentInvestAmount - currentBankAmount) |}.

(** [for (let year = ...; year <= years; year++)] with [n] iterations left:
    the points pushed from [year] on, in order. *)
Fixpoint loop (n year : nat) (currentInvestAmount currentBankAmount : num)
  : list (Point num) :=
  match n with
  | O => []
  | S n' =>
      point year currentInvestAmount currentBankAmount
      :: loop n' (S year) (compoundInvest currentInvestAmount)
                          (compoundBank currentBankAmount)
  end.

Definition data : list (Point num) := loop (S years) 0 (lit 0) (lit 0).

End Program.
End InvestmentChart.

(* ------------------------------------------------------------------------- *)
(** ** Amortization simulator: the [mortgageData] memo of [HousingSearch] *)

Module HousingSearch.

Record Point (num : Type) : Type := {
  year : string;
  balanceStandard : num;
  balanceAccelerated : num
}.

(** The variables of the simulation loop. *)
Record Sim (num : Type) : Type := {
  b1 : num;
  b2 : num;
  totalInterest1 : num;
  totalInterest2 : num;
  months1 : nat;
  months2 : nat;
  data : list (Point num)
}.

Record Result (num : Type) : Type := {
  interestSaved : num;
  timeSavedMonths : Z;
  totalInterestStandard : num;
  payoffYearsStandard : string;
  payoffYearsAccelerated : string;
  chartData : list (Point num)
}.

(** [(months / 12).toFixed(1)] for a month count: the quotient rounded to one
    decimal, a tie going up.  A tie is a quotient ending in .25 or .75, which
    binary64 holds exactly, and every other quotient is at least 1/60 away
    from a tie, so the rounding of the binary64 quotient is the rounding of
    the exact one: [(10 * months + 6) / 12] tenths. *)
Definition tenthsOfYears (months : nat) : nat := (10 * months + 6) / 12.

Definition toFixed1 (tenths : nat) : string :=
  (NilEmpty.string_of_uint (Nat.to_uint (tenths / 10)) ++ "." ++
   NilEmpty.string_of_uint (Nat.to_uint (tenths mod 10)))%string.

Section Program.

Context {num : Type} {N : Number num}.
Local Open Scope js_scope.

Definition maxMonths : nat := 720.

(** The component state the memo reads. *)
Variables (loanBalance interestRate monthlyPayment extraPrincipal : num).

Definition r : num := interestRate / lit 100 / lit 12.

Definition init : Sim num :=
  {| b1 := loanBalance; b2 := loanBalance;
     totalInterest1 := lit 0; totalInterest2 := lit 0;
     months1 := 0; months2 := 0; data := [] |}.

(** "Record data point at start of year" *)
Definition record (i : nat) (s : Sim num) : Sim num :=
  if (i mod 12 =? 0)%nat && ((b1 s >? lit 0) || (b2 s >? lit 0))
  then {| b1 := b1 s; b2 := b2 s;
          totalInterest1 := totalInterest1 s; totalInterest2 := totalInterest2 s;
          months1 := months1 s; months2 := months2 s;
          data := data s ++
                  [{| year := yearLabel (i / 12);
                      balanceStandard := Math_max (lit 0) (Math_round (b1 s));
                      balanceAccelerated := Math_max (lit 0) (Math_round (b2 s)) |}] |}
  else s.

(** "Scenario 1: Standard" *)
Definition standard (s : Sim num) : Sim num :=
  if b1 s >? lit 0 then
    let interest := b1 s * r in
    let principal := Math_min (b1 s) (monthlyPayment - interest) in
    {| b1 := b1 s - principal; b2 := b2 s;
       totalInterest1 := totalInterest1 s + interest;
       totalInterest2 := totalInterest2 s;
       months1 := S (months1 s); months2 := months2 s; data := data s |}
  else s.

(** "Scenario 2: Accelerated" *)
Definition accelerated (s : Sim num) : Sim num :=
  if b2 s >? lit 0 then
    let interest := b2 s * r in
    let totalPay := monthlyPayment + extraPrincipal in
    let principal := Math_min (b2 s) (totalPay - interest) in
    {| b1 := b1 s; b2 := b2 s - principal;
       totalInterest1 := totalInterest1 s;
       totalInterest2 := totalInterest2 s + interest;
       months1 := months1 s; months2 := S (months2 s); data := data s |}
  else s.

(** One pass through the loop body for counter [i], up to the [break] test. *)
Definition month (i : nat) (s : Sim num) : Sim num :=
  accelerated (standard (record i s)).

(** [if (b1 <= 0 && b2 <= 0) break] *)
Definition paidOff (s : Sim num) : bool := (b1 s <=? lit 0) && (b2 s <=? lit 0).

(** [for (let i = ...; i <= maxMonths; i++)] with [n] iterations left. *)
Fixpoint loop (n i : nat) (s : Sim num) : Sim num :=
  match n with
  | O => s
  | S n' =>
      let s' := month i s in
      if paidOff s' then s' else loop n' (S i) s'
  end.

(** The state of the variables when the loop is left. *)
Definition simulate : Sim num := loop (S maxMonths) 0 init.

(** [null] is [None]. *)
Definition mortgageData : option (Result num) :=
  if (r <=? lit 0) || (monthlyPayment <=? loanBalance * r) then None
  else
    let s := simulate in
    Some {| interestSaved := Math_round (totalInterest1 s - totalInterest2 s);
            timeSavedMonths := Z.max 0 (Z.of_nat (months1 s) - Z.of_nat (months2 s));
            totalInterestStandard := Math_round (totalInterest1 s);
            payoffYearsStandard := toFixed1 (tenthsOfYears (months1 s));
            payoffYearsAccelerated := toFixed1 (tenthsOfYears (months2 s));
            chartData := data s |}.

(** For the statements: the variables after [k] passes through the loop body
    (the [break] apart), and whether a schedule still has a balance. *)
Fixpoint stateAfter (k : nat) : Sim num :=
  match k with
  | O => init
  | S k' => month k' (stateAfter k')
  end.

Definition alive (s : Sim num) : bool := (b1 s >? lit 0) || (b2 s >? lit 0).

(** The point the program pushes at counter [i]. *)
Definition pointAt (i : nat) : Point num :=
  {| year := yearLabel (i / 12);
     balanceStandard := Math_max (lit 0) (Math_round (b1 (stateAfter i)));
     balanceAccelerated := Math_max (lit 0) (Math_round (b2 (stateAfter i))) |}.

(** Whether the program pushes a point at counter [i], if it gets there. *)
Definition recorded (i : nat) : bool := (i mod 12 =? 0)%nat && alive (stateAfter i).

End Program.
End HousingSearch.

(* ------------------------------------------------------------------------- *)
(** ** Definitions the statements use *)

Open Scope Q_scope.

(** The bracket table that the chain of [App.federalTax] hard-codes, top
    bracket first: (floor, rate, cumulative tax at the floor). *)
Definition brackets : list (Q * Q * Q) :=
  [ (609350, 0.37, 183647);
    (243725, 0.35, 55678.5);
    (191950, 0.32, 39110.5);
    (100525, 0.24, 17168.5);
    (47150, 0.22, 5426);
    (11600, 0.12, 1160);
    (0, 0.10, 0) ].

(** The tax by table: the first bracket whose floor the taxable income
    exceeds; the lowest bracket takes what is left. *)
Fixpoint bracketTax (table : list (Q * Q * Q)) (taxable : Q) : Q :=
  match table with
  | [] => 0
  | (floor, rate, base) :: lower =>
      match lower with
      | [] => base + (taxable - floor) * rate
      | _ :: _ =>
          if Qltb floor taxable then base + (taxable - floor) * rate
          else bracketTax lower taxable
      end
  end.

(** At the floor of each bracket but the lowest: the bracket's constant minus
    the tax that the bracket below computes at that floor. *)
Fixpoint boundaryGaps (table : list (Q * Q * Q)) : list Q :=
  match table with
  | (floor, _, base) :: (((floor', rate', base') :: _) as lower) =>
      Qred (base - (base' + (floor - floor') * rate')) :: boundaryGaps lower
  | _ => []
  end.

(** A sequence of [updateAllocation] calls, as the user edits one field
    after another: the state after the last of them. *)
Definition updateAllocations {num : Type} {N : Number num}
    (budgetData : BudgetBreakdown num) (edits : list (Category * num))
  : BudgetBreakdown num :=
  fold_left (fun bd e => App.updateAllocation bd (fst e) (snd e)) edits budgetData.

(** The data model's invariant on an allocation set: no amount is negative. *)
Definition nonneg (a : Allocations Q) : Prop :=
  0 <= housing a /\ 0 <= food a /\ 0 <= general a /\ 0 <= savings a.

(** The conservation invariant: the amounts sum to the budget within 0.001. *)
Definition conserved (budget : Q) (a : Allocations Q) : Prop :=
  -0.001 <= budget - App.allocationSum a <= 0.001.

(** Two allocation sets with equal amounts (as rationals). *)
Definition alloc_equiv (a a' : Allocations Q) : Prop :=
  housing a == housing a' /\ food a == food a' /\
  general a == general a' /\ savings a == savings a'.

(** The withdrawal as the specification words it: the donors in the order
    given, the edited category skipped; stop once the remaining delta is
    within 0.001 of zero; otherwise take [min(donorBalance, remainingDelta)]
    from the donor and go on to the next one. *)
Fixpoint withdrawSpec (edited : Category) (donors : list Category)
    (a : Allocations Q) (remainingDelta : Q) : Allocations Q * Q :=
  match donors with
  | [] => (a, remainingDelta)
  | donor :: rest =>
      if Category_eqb donor edited then withdrawSpec edited rest a remainingDelta
      else if Qltb (Qabs' remainingDelta) 0.001 then (a, remainingDelta)
      else
        let donorBalance := App.alloc_get donor a in
        let amount := Qmin' donorBalance remainingDelta in
        withdrawSpec edited rest
          (App.alloc_set donor (donorBalance - amount) a) (remainingDelta - amount)
  end.

(** The update rule of one track as the specification words it:
    [balance' = (balance + monthlyAmount * 12) * (1 + annualRate)]. *)
Definition trackStep (monthlyAmount annualRate balance : Q) : Q :=
  (balance + monthlyAmount * 12) * (1 + annualRate).

(** The balance of a track before the compounding of year [k]: 0 before year
    0, then the update rule year after year. *)
Fixpoint trackBalance (monthlyAmount annualRate : Q) (k : nat) : Q :=
  match k with
  | O => 0
  | S k' => trackStep monthlyAmount annualRate (trackBalance monthlyAmount annualRate k')
  end.

(** The growth claim as the specification states it, for a contribution, a
    split ratio and two rates in percent: 31 points, the point of index [k]
    labelled year [k] and holding the two balances before the compounding of
    year [k] (so both 0 at year 0, and consecutive balances related by the
    update rule). *)
Definition pointsHoldBalances (monthlyContribution splitRatio ratePercentA ratePercentB : Q)
  : Prop :=
  let series := InvestmentChart.data monthlyContribution splitRatio
                  ratePercentA ratePercentB in
  List.length series = 31%nat /\
  forall k, (k <= 30)%nat ->
    exists p, nth_error series k = Some p /\
              InvestmentChart.year p = yearLabel k /\
              InvestmentChart.investAmount p
                == trackBalance (monthlyContribution * splitRatio)
                                (ratePercentA / 100) k /\
              InvestmentChart.bankAmount p
                == trackBalance (monthlyContribution * (1 - splitRatio))
                                (ratePercentB / 100) k.

(** What the program pushes for year [k]: the balances rounded to whole
    numbers, and their rounded difference. *)
Definition roundedPoint (monthlyContribution splitRatio ratePercentA ratePercentB : Q)
    (k : nat) : InvestmentChart.Point Q :=
  let balanceA := trackBalance (monthlyContribution * splitRatio) (ratePercentA / 100) k in
  let balanceB := trackBalance (monthlyContribution * (1 - splitRatio))
                    (ratePercentB / 100) k in
  {| InvestmentChart.year := yearLabel k;
     InvestmentChart.investAmount := Qround' balanceA;
     InvestmentChart.bankAmount := Qround' balanceB;
     InvestmentChart.difference := Qround' (balanceA - balanceB) |}.

(** The balance-series claim as the specification states it: a data point is
    present for every 12-month boundary up to and including the first one at
    or after both payoffs.  [months1] and [months2] are the months the two
    schedules took; the boundaries counted are the years [k] with
    [12 * k < max months1 months2 + 12]. *)
Definition pointsUpToPayoff (loanBalance interestRate monthlyPayment extraPrincipal : Q)
  : Prop :=
  let s := HousingSearch.simulate loanBalance interestRate monthlyPayment extraPrincipal in
  let payoff := Nat.max (HousingSearch.months1 s) (HousingSearch.months2 s) in
  forall k, (12 * k < payoff + 12)%nat ->
    exists p, In p (HousingSearch.data s) /\ HousingSearch.year p = yearLabel k.

(** The lockstep relation between the two schedules: the accelerated one is
    never behind in balance, in interest paid, or in months taken. *)
Definition lockstep (s : HousingSearch.Sim Q) : Prop :=
  HousingSearch.b2 s <= HousingSearch.b1 s /\
  HousingSearch.totalInterest2 s <= HousingSearch.totalInterest1 s /\
  (HousingSearch.months2 s <= HousingSearch.months1 s)%nat.

(** [i % 12 === 0] *)
Definition yearBoundary (i : nat) : bool := (i mod 12 =? 0)%nat.

(** A budget of 100 split 35/15/20/30, for the worked instances. *)
Definition budget100 : BudgetBreakdown Q :=
  {| netMonthlyIncome := 100;
     taxes := {| federal := 0; state := 0; fica := 0; total := 0 |};
     allocations := {| housing := 35; food := 15; general := 20; savings := 30 |} |}.

(* ------------------------------------------------------------------------- *)
(** ** Reading the exact instance *)

Lemma Qle_bool_true (a b : Q) : Qle_bool a b = true -> a <= b.
Proof. apply Qle_bool_iff. Qed.

Lemma Qle_bool_false (a b : Q) : Qle_bool a b = false -> b < a.
Proof.
  intros H. apply Qnot_le_lt. intros L. apply Qle_bool_iff in L. congruence.
Qed.

Ltac q_unfold :=
  cbv [lit add sub mul div ltb leb Math_max Math_min Math_abs exact
       Qltb Qmax' Qmin' Qabs'] in *.

(** One comparison of the program, decided both ways. *)
Ltac q_case :=
  match goal with
  | |- context [Qle_bool ?a ?b] =>
      let E := fresh "E" in
      destruct (Qle_bool a b) eqn:E;
      [apply Qle_bool_true in E | apply Qle_bool_false in E]
  | H : context [Qle_bool ?a ?b] |- _ =>
      let E := fresh "E" in
      destruct (Qle_bool a b) eqn:E;
      [apply Qle_bool_true in E | apply Qle_bool_false in E]
  end.

Ltac q_cases := q_unfold; repeat (q_case; cbn [negb andb orb] in * ).
Ltac q_solve := q_cases; try lra.

(** Projections of the records. *)
Ltac alloc_fields :=
  cbn [App.alloc_get App.alloc_set housing food general savings fst snd] in *.

(** After the comparisons are decided: split what is asked and close each
    part by linear arithmetic. *)
Ltac q_finish :=
  unfold nonneg, alloc_equiv in *; alloc_fields; q_cases; alloc_fields;
  repeat match goal with
         | H : _ /\ _ |- _ => destruct H
         end;
  repeat split; try lra.

Ltac sim_fields :=
  cbn [HousingSearch.b1 HousingSearch.b2 HousingSearch.totalInterest1
       HousingSearch.totalInterest2 HousingSearch.months1 HousingSearch.months2
       HousingSearch.data] in *.

(* ------------------------------------------------------------------------- *)
(** ** Tax estimator *)

Lemma federalTax_bracketTax (taxable : Q) :
  App.federalTax taxable == bracketTax brackets taxable.
Proof. unfold App.federalTax, bracketTax, brackets. q_solve. Qed.

(** Below the top boundary the federal tax does not decrease. *)
Lemma federalTax_monotone_below (t1 t2 : Q) :
  t1 <= t2 -> t2 <= 609350 -> App.federalTax t1 <= App.federalTax t2.
Proof. intros H1 H2. unfold App.federalTax. q_solve. Qed.

(** Above it neither. *)
Lemma federalTax_monotone_above (t1 t2 : Q) :
  609350 < t1 -> t1 <= t2 -> App.federalTax t1 <= App.federalTax t2.
Proof. intros H1 H2. unfold App.federalTax. q_solve. Qed.

Lemma stateTax_monotone (baseRate i1 i2 : Q) :
  0 <= baseRate -> i1 <= i2 ->
  state (App.estimateTax i1 baseRate) <= state (App.estimateTax i2 baseRate).
Proof.
  intros Hr Hi. cbn [App.estimateTax state]. q_cases; try lra.
  - assert (0 <= (i2 - i1) * baseRate) by (apply Qmult_le_0_compat; lra). lra.
  - assert (0 <= (i2 - i1) * baseRate) by (apply Qmult_le_0_compat; lra). lra.
Qed.

(** The total is monotone as long as the two taxable incomes lie on one side
    of the top boundary 609350 (incomes up to 623950, or both above). *)
Lemma estimateTax_monotone_one_side (baseRate i1 i2 : Q) :
  0 <= baseRate -> i1 <= i2 ->
  i2 <= 623950 \/ 623950 < i1 ->
  total (App.estimateTax i1 baseRate) <= total (App.estimateTax i2 baseRate).
Proof.
  intros Hr Hi Hside.
  pose proof (stateTax_monotone Hr Hi) as Hs.
  cbn [App.estimateTax state total] in *.
  assert (Hf : App.federalTax (App.taxableIncome i1)
               <= App.federalTax (App.taxableIncome i2)).
  { destruct Hside as [Hlow | Hhigh].
    - apply federalTax_monotone_below; unfold App.taxableIncome; q_solve.
    - apply federalTax_monotone_above; unfold App.taxableIncome; q_solve. }
  q_unfold. lra.
Qed.

(** For instance between incomes of 50000 and 60000 at a state rate of 5%. *)
Lemma estimateTax_monotone_one_side_witness :
  total (App.estimateTax (N:=exact) 50000 0.05)
    <= total (App.estimateTax (N:=exact) 60000 0.05).
Proof.
  apply (@estimateTax_monotone_one_side 0.05 50000 60000).
  - vm_compute; discriminate.
  - vm_compute; discriminate.
  - left. vm_compute; discriminate.
Defined.

(** C5 (tax monotonicity), evaluated where it breaks.  With state rate 0, an
    income of 623950 has taxable income 609350, the last amount of the 35%
    bracket, and a total of 231379.425; fifty cents more of income move the
    taxable income into the 37% bracket, whose constant 183647 lies 0.25 below
    the 183647.25 reached at the boundary, and the total falls to 231379.39825.
    Both instances agree on the order. *)
Theorem estimateTax_total_drops_at_top_bracket :
  total (App.estimateTax (N:=exact) 623950 0) == 231379.425 /\
  total (App.estimateTax (N:=exact) 623950.5 0) == 231379.39825 /\
  total (App.estimateTax (N:=exact) 623950.5 0)
    < total (App.estimateTax (N:=exact) 623950 0) /\
  ltb (total (App.estimateTax (N:=binary64) (lit 623950.5) (lit 0)))
      (total (App.estimateTax (N:=binary64) (lit 623950) (lit 0))) = true.
Proof. repeat split; vm_compute; reflexivity. Qed.

(** C10 (continuity at the bracket boundaries), evaluated on the table of the
    code.  At the floors 243725, 191950, 100525, 47150 and 11600 the constant
    of the upper bracket is the tax the lower bracket computes there; at
    609350 the constant 183647 is 1/4 below the 183647.25 that the 35% bracket
    computes, so the function steps down by 0.25 there. *)
Theorem federalTax_boundary_gaps :
  (forall taxable : Q, App.federalTax taxable == bracketTax brackets taxable) /\
  boundaryGaps brackets = [ -(1 # 4); 0; 0; 0; 0; 0 ] /\
  App.federalTax (N:=exact) 11600 == 1160 /\
  App.federalTax (N:=exact) 47150 == 5426 /\
  App.federalTax (N:=exact) 100525 == 17168.5 /\
  App.federalTax (N:=exact) 191950 == 39110.5 /\
  App.federalTax (N:=exact) 243725 == 55678.5 /\
  App.federalTax (N:=exact) 609350 == 183647.25 /\
  App.federalTax (N:=exact) 609350.01 == 183647.0037 /\
  App.federalTax (N:=exact) 609350.01 < App.federalTax (N:=exact) 609350 /\
  App.federalTax (N:=binary64) (lit 609350) = lit 183647.25 /\
  ltb (App.federalTax (N:=binary64) (lit 609350.01))
      (App.federalTax (N:=binary64) (lit 609350)) = true.
Proof.
  split; [exact federalTax_bracketTax|].
  repeat split; vm_compute; reflexivity.
Qed.

(** C7 (end-to-end scenario).  For income 60000 and state rate 0: the taxable
    income is 45400; the federal tax is the bracket table's tax on it (5216,
    in the 12% bracket); FICA is 4590; the state tax is 0; the net monthly
    income is (60000 - federal - 4590) / 12; the template assigns 35%, 15%,
    20% and 30% of it, and the four amounts sum to it within 0.001.  Stated
    for the exact reading and for the binary64 values the program computes. *)
Theorem calculateBudget_60000_no_state_tax :
  (let bd := App.calculateBudget (N:=exact) 60000 0 in
   let net := netMonthlyIncome bd in
   App.taxableIncome (N:=exact) 60000 == 45400 /\
   federal (taxes bd) == bracketTax brackets 45400 /\
   federal (taxes bd) == 5216 /\
   fica (taxes bd) == 4590 /\
   state (taxes bd) == 0 /\
   total (taxes bd) == federal (taxes bd) + state (taxes bd) + fica (taxes bd) /\
   net == (60000 - federal (taxes bd) - 4590) / 12 /\
   housing (allocations bd) == 0.35 * net /\
   food (allocations bd) == 0.15 * net /\
   general (allocations bd) == 0.20 * net /\
   savings (allocations bd) == 0.30 * net /\
   Qabs' (net - App.allocationSum (allocations bd)) <= 0.001) /\
  (let bd := App.calculateBudget (N:=binary64) (lit 60000) (lit 0) in
   let net := netMonthlyIncome bd in
   App.taxableIncome (N:=binary64) (lit 60000) = lit 45400 /\
   federal (taxes bd) = App.federalTax (N:=binary64) (lit 45400) /\
   federal (taxes bd) = lit 5216 /\
   fica (taxes bd) = lit 4590 /\
   state (taxes bd) = lit 0 /\
   net = ((lit 60000 - federal (taxes bd) - lit 4590) / lit 12)%js /\
   housing (allocations bd) = (lit 0.35 * net)%js /\
   food (allocations bd) = (lit 0.15 * net)%js /\
   general (allocations bd) = (lit 0.20 * net)%js /\
   savings (allocations bd) = (lit 0.30 * net)%js /\
   (Math_abs (net - App.allocationSum (allocations bd)) <=? lit 0.001)%js = true).
Proof.
  split; cbv zeta.
  - repeat split; vm_compute; try reflexivity; discriminate.
  - repeat split; vm_compute; reflexivity.
Qed.

(* ------------------------------------------------------------------------- *)
(** ** Amortization simulator: feasibility *)


(** C6 (acceleration benefit).  For 300000 at 6.5% with a payment of 2500 and
    500 of extra principal, the binary64 run of the program pays the standard
    schedule off in 195 months and the accelerated one in 145: 50 months and
    52587 of interest are saved, and the payoff durations shown are 16.3 and
    12.1 years. *)
Theorem mortgageData_acceleration_benefit :
  let s := HousingSearch.simulate (N:=binary64)
             (lit 300000) (lit 6.5) (lit 2500) (lit 500) in
  exists res,
    HousingSearch.mortgageData (N:=binary64)
      (lit 300000) (lit 6.5) (lit 2500) (lit 500) = Some res /\
    HousingSearch.timeSavedMonths res = 50%Z /\
    (0 < HousingSearch.timeSavedMonths res)%Z /\
    HousingSearch.interestSaved res = lit 52587 /\
    (lit 0 <? HousingSearch.interestSaved res)%js = true /\
    HousingSearch.months1 s = 195%nat /\
    HousingSearch.months2 s = 145%nat /\
    (HousingSearch.months2 s < HousingSearch.months1 s)%nat /\
    HousingSearch.payoffYearsStandard res = "16.3"%string /\
    HousingSearch.payoffYearsAccelerated res = "12.1"%string /\
    (HousingSearch.tenthsOfYears (HousingSearch.months2 s)
     < HousingSearch.tenthsOfYears (HousingSearch.months1 s))%nat.
Proof.
  cbv zeta. eexists. split; [vm_compute; reflexivity|].
  repeat split; try (vm_compute; reflexivity).
  - vm_compute. lia.
  - vm_compute. lia.
Qed.

(* ------------------------------------------------------------------------- *)
(** ** Allocation rebalancer *)

Lemma finalCorrection_conserved (budget : Q) (a : Allocations Q) :
  conserved budget (App.finalCorrection budget a).
Proof.
  unfold conserved, App.finalCorrection, App.allocationSum, App.Object_values.
  destruct a as [h f g s]. cbn [fold_left housing food general savings].
  q_cases; cbn [App.alloc_set housing food general savings fold_left];
    q_unfold; lra.
Qed.

Lemma finalCorrection_others (budget : Q) (a : Allocations Q) :
  housing (App.finalCorrection budget a) = housing a /\
  food (App.finalCorrection budget a) = food a /\
  general (App.finalCorrection budget a) = general a.
Proof.
  unfold App.finalCorrection.
  destruct (Math_abs (budget - App.allocationSum a) >? lit 0.001)%js;
    repeat split; reflexivity.
Qed.

(** The withdrawal loop never makes an amount negative. *)
Lemma withdraw_nonneg (category c : Category) (order : list Category) :
  forall (a : Allocations Q) (rem : Q),
    0 <= App.alloc_get c a ->
    0 <= App.alloc_get c (fst (App.withdraw category order a rem)).
Proof.
  induction order as [| source rest IH]; intros a rem Hc; cbn [App.withdraw fst].
  - exact Hc.
  - destruct (Category_eqb source category); [now apply IH|].
    destruct (Math_abs rem <? lit 0.001)%js; [exact Hc|].
    destruct (App.alloc_get source a <=? lit 0)%js eqn:Hav; [now apply IH|].
    apply IH.
    destruct source, c, a as [h f g s];
      cbn [App.alloc_get App.alloc_set housing food general savings] in *;
      q_solve.
Qed.

Lemma deposit_nonneg (category c : Category) (order : list Category) :
  forall (a : Allocations Q) (money : Q),
    0 <= money -> 0 <= App.alloc_get c a ->
    0 <= App.alloc_get c (App.deposit category order a money).
Proof.
  induction order as [| target rest IH]; intros a money Hm Hc; cbn [App.deposit].
  - exact Hc.
  - destruct (Category_eqb target category); [now apply IH|].
    destruct target, c, a as [h f g s];
      cbn [App.alloc_get App.alloc_set housing food general savings] in *;
      q_solve.
Qed.

(** One call keeps the sum within 0.001 of the budget, and keeps housing,
    food and general non-negative. *)
Lemma updateAllocation_invariant (bd : BudgetBreakdown Q) (category : Category)
    (newVal : Q) :
  let bd' := App.updateAllocation bd category newVal in
  netMonthlyIncome bd' = netMonthlyIncome bd /\
  (conserved (netMonthlyIncome bd) (allocations bd) ->
   conserved (netMonthlyIncome bd') (allocations bd')) /\
  (forall c, c <> Savings ->
     0 <= App.alloc_get c (allocations bd) ->
     0 <= App.alloc_get c (allocations bd')).
Proof.
  cbv zeta. unfold App.updateAllocation.
  destruct (netMonthlyIncome bd <=? lit 0)%js;
    [split; [reflexivity | split; [exact (fun H => H) | exact (fun _ _ H => H)]]|].
  set (safeVal := Math_max (lit 0) (Math_min newVal (netMonthlyIncome bd))).
  destruct (Math_abs (safeVal - App.alloc_get category (allocations bd)) <? lit 0.001)%js
    eqn:Hsmall;
    [split; [reflexivity | split; [exact (fun H => H) | exact (fun _ _ H => H)]]|].
  cbn [netMonthlyIncome allocations].
  split; [reflexivity|]. split; [intros _; apply finalCorrection_conserved|].
  intros c Hc Hnn.
  assert (Hsafe : 0 <= safeVal) by (unfold safeVal; q_solve).
  assert (Hset : 0 <= App.alloc_get c
                        (App.alloc_set category safeVal (allocations bd))).
  { destruct category, c, (allocations bd) as [h f g s];
      cbn [App.alloc_get App.alloc_set housing food general savings] in *; lra. }
  match goal with
  | |- 0 <= App.alloc_get c (App.finalCorrection ?b ?a) =>
      pose proof (finalCorrection_others b a) as (Hh & Hf & Hg);
      assert (Hmid : 0 <= App.alloc_get c a)
  end.
  { destruct (safeVal - App.alloc_get category (allocations bd) >? lit 0)%js.
    - apply withdraw_nonneg. exact Hset.
    - apply deposit_nonneg; [q_solve | exact Hset]. }
  destruct c; cbn [App.alloc_get] in *; try congruence.
Qed.

(** Conservation along every sequence of calls: from a state whose amounts
    sum to the budget within 0.001, every sequence of edits leads to a state
    with the same budget whose amounts sum to it within 0.001, and housing,
    food and general stay non-negative if they were.  (Savings is the
    amount that does not: see the next theorem.) *)
Lemma updateAllocations_conserved (edits : list (Category * Q)) :
  forall bd : BudgetBreakdown Q,
    conserved (netMonthlyIncome bd) (allocations bd) ->
    0 <= housing (allocations bd) ->
    0 <= food (allocations bd) ->
    0 <= general (allocations bd) ->
    let bd' := updateAllocations bd edits in
    netMonthlyIncome bd' = netMonthlyIncome bd /\
    conserved (netMonthlyIncome bd') (allocations bd') /\
    0 <= housing (allocations bd') /\
    0 <= food (allocations bd') /\
    0 <= general (allocations bd').
Proof.
  unfold updateAllocations.
  induction edits as [| [c v] edits IH]; intros bd Hsum Hh Hf Hg; cbn [fold_left fst snd].
  - split; [reflexivity|]. split; [exact Hsum|]. repeat split; assumption.
  - pose proof (updateAllocation_invariant bd c v) as (Hnet & Hcons & Hpos).
    cbv zeta in *.
    destruct (IH (App.updateAllocation bd c v)) as (Hnet' & Hrest).
    + now apply Hcons.
    + apply (Hpos Housing); [discriminate | exact Hh].
    + apply (Hpos Food); [discriminate | exact Hf].
    + apply (Hpos General); [discriminate | exact Hg].
    + split; [congruence | exact Hrest].
Qed.

(** For instance along the two edits that drive savings below zero. *)
Lemma updateAllocations_conserved_witness :
  let bd0 := App.calculateBudget (N:=exact) 12000 0 in
  let bd2 := updateAllocations bd0 [(Housing, 600.2755); (Food, 323.2259)] in
  conserved (netMonthlyIncome bd2) (allocations bd2) /\
  0 <= housing (allocations bd2) /\
  0 <= food (allocations bd2) /\
  0 <= general (allocations bd2).
Proof.
  cbv zeta.
  refine (proj2 (@updateAllocations_conserved
                   [(Housing, 600.2755); (Food, 323.2259)]
                   (App.calculateBudget (N:=exact) 12000 0) _ _ _ _)).
  - vm_compute. split; discriminate.
  - vm_compute; discriminate.
  - vm_compute; discriminate.
  - vm_compute; discriminate.
Defined.

(** C1 (allocation conservation and non-negativity), evaluated where it
    breaks.  Income 12000 with state rate 0 gives the budget 923.5 and the
    template (323.225, 138.525, 184.7, 277.05), all non-negative and summing
    to the budget.  Setting housing to 600.2755 drains savings and leaves
    0.0005 of the delta uncovered (the loop stops below 0.001): the sum is
    923.5005.  Setting food to 323.2259 then drains general and leaves 0.0009
    uncovered: the sum 923.5014 is off by more than 0.001, the final check
    adds the error -0.0014 to savings, which was 0, and savings ends
    negative.  The sum is the budget again; the amounts are not all
    non-negative.  The binary64 run does the same. *)
Theorem updateAllocation_savings_negative :
  (let bd0 := App.calculateBudget (N:=exact) 12000 0 in
   let bd2 := updateAllocations bd0 [(Housing, 600.2755); (Food, 323.2259)] in
   netMonthlyIncome bd0 == 923.5 /\
   nonneg (allocations bd0) /\
   conserved (netMonthlyIncome bd0) (allocations bd0) /\
   alloc_equiv (allocations (App.updateAllocation bd0 Housing 600.2755))
     {| housing := 600.2755; food := 138.525; general := 184.7; savings := 0 |} /\
   alloc_equiv (allocations bd2)
     {| housing := 600.2755; food := 323.2259; general := 0;
        savings := -0.0014 |} /\
   savings (allocations bd2) < 0 /\
   App.allocationSum (allocations bd2) == netMonthlyIncome bd2) /\
  (let bd0 := App.calculateBudget (N:=binary64) (lit 12000) (lit 0) in
   let bd2 := updateAllocations bd0
                [(Housing, lit 600.2755); (Food, lit 323.2259)] in
   netMonthlyIncome bd0 = lit 923.5 /\
   (savings (allocations bd2) <? lit 0)%js = true /\
   (savings (allocations bd2) <? lit (-0.00139))%js = true).
Proof.
  split; cbv zeta.
  - repeat split; vm_compute; try reflexivity; discriminate.
  - repeat split; vm_compute; reflexivity.
Qed.

(** The loop of the program and the procedure of the specification agree on
    allocation sets without negative amounts. *)
Lemma withdraw_refines_withdrawSpec (category : Category) (order : list Category) :
  forall (a a' : Allocations Q) (rem rem' : Q),
    alloc_equiv a a' -> rem == rem' -> nonneg a -> 0 <= rem ->
    alloc_equiv (fst (App.withdraw category order a rem))
                (fst (withdrawSpec category order a' rem')) /\
    snd (App.withdraw category order a rem)
      == snd (withdrawSpec category order a' rem').
Proof.
  induction order as [| source rest IH]; intros a a' rem rem' Ha Hrem Hnn Hpos;
    cbn [App.withdraw withdrawSpec].
  - split; assumption.
  - destruct (Category_eqb source category); [now apply IH|].
    assert (Hbreak : (Math_abs rem <? lit 0.001)%js = Qltb (Qabs' rem') 0.001)
      by (q_cases; try reflexivity; lra).
    rewrite <- Hbreak.
    destruct (Math_abs rem <? lit 0.001)%js eqn:Hstop; [split; assumption|].
    destruct (App.alloc_get source a <=? lit 0)%js eqn:Hav.
    + apply IH; try assumption.
      * destruct source, a as [h f g s], a' as [h' f' g' s']; q_finish.
      * destruct source, a as [h f g s], a' as [h' f' g' s']; q_finish.
    + apply IH.
      * destruct source, a as [h f g s], a' as [h' f' g' s']; q_finish.
      * destruct source, a as [h f g s], a' as [h' f' g' s']; q_finish.
      * destruct source, a as [h f g s], a' as [h' f' g' s']; q_finish.
      * destruct source, a as [h f g s], a' as [h' f' g' s']; q_finish.
Qed.



(* ------------------------------------------------------------------------- *)
(** ** Growth simulator *)

(** [Math.round] in the exact reading: a whole number, at most 1/2 away, a
    tie going up. *)
Lemma Qround'_spec (x : Q) :
  Qround' x - (1 # 2) <= x /\ x < Qround' x + (1 # 2) /\
  exists z : Z, Qround' x = inject_Z z.
Proof.
  unfold Qround'.
  pose proof (Qfloor_le (x + (1 # 2))) as Hle.
  pose proof (Qlt_floor (x + (1 # 2))) as Hlt.
  rewrite inject_Z_plus in Hlt.
  change (inject_Z 1) with 1 in Hlt.
  repeat split; try lra. eexists; reflexivity.
Qed.

Lemma Qround'_nonneg (x : Q) : 0 <= x -> 0 <= Qround' x.
Proof.
  intros Hx. unfold Qround'.
  change 0 with (inject_Z 0). rewrite <- Zle_Qle.
  change 0%Z with (Qfloor 0). apply Qfloor_resp_le. lra.
Qed.

(** The loop pushes, from year [year] on, the rounded balances of the years
    it passes. *)
Lemma growth_loop_points (mc ratio pA pB : Q) (n : nat) :
  forall year : nat,
    InvestmentChart.loop mc ratio pA pB n year
      (trackBalance (mc * ratio) (pA / 100) year)
      (trackBalance (mc * (1 - ratio)) (pB / 100) year)
    = map (roundedPoint mc ratio pA pB) (seq year n).
Proof.
  induction n as [| n IH]; intros year; cbn [InvestmentChart.loop seq map].
  - reflexivity.
  - f_equal. exact (IH (S year)).
Qed.



(* ------------------------------------------------------------------------- *)
(** ** Amortization simulator: the loop *)

Section LoopFacts.

Context {num : Type} {N : Number num}.
Variables (loanBalance interestRate monthlyPayment extraPrincipal : num).

Abbreviation stateAfter :=
  (HousingSearch.stateAfter loanBalance interestRate monthlyPayment extraPrincipal).
Abbreviation month :=
  (HousingSearch.month interestRate monthlyPayment extraPrincipal).
Abbreviation loop :=
  (HousingSearch.loop interestRate monthlyPayment extraPrincipal).
Abbreviation pointAt :=
  (HousingSearch.pointAt loanBalance interestRate monthlyPayment extraPrincipal).
Abbreviation recorded :=
  (HousingSearch.recorded loanBalance interestRate monthlyPayment extraPrincipal).

(** Entered at counter [i] with [n] iterations left, the loop is left after
    some [K] passes: the first [K] beyond [i] at which both balances are paid
    off, or [i + n]. *)
Lemma loop_stateAfter (n : nat) :
  forall i : nat,
  exists K : nat,
    (i <= K <= i + n)%nat /\
    ((0 < n)%nat -> (i < K)%nat) /\
    loop n i (stateAfter i) = stateAfter K /\
    (forall j, (i < j < K)%nat -> HousingSearch.paidOff (stateAfter j) = false) /\
    ((K < i + n)%nat -> HousingSearch.paidOff (stateAfter K) = true).
Proof.
  induction n as [| n IH]; intros i.
  - exists i. cbn [HousingSearch.loop]. repeat split; try lia; reflexivity.
  - cbn [HousingSearch.loop].
    change (month i (stateAfter i)) with (stateAfter (S i)).
    destruct (HousingSearch.paidOff (stateAfter (S i))) eqn:Hpaid.
    + exists (S i). repeat split; try lia. intros _. exact Hpaid.
    + destruct (IH (S i)) as (K & Hrange & _ & Hloop & Hbefore & Hstop).
      exists K. repeat split; try lia.
      * exact Hloop.
      * intros j Hj. destruct (Nat.eq_dec j (S i)) as [-> | Hne];
          [exact Hpaid | apply Hbefore; lia].
      * intros HK. apply Hstop. lia.
Qed.

Lemma data_standard (s : HousingSearch.Sim num) :
  HousingSearch.data (HousingSearch.standard interestRate monthlyPayment s)
    = HousingSearch.data s.
Proof.
  unfold HousingSearch.standard.
  destruct (HousingSearch.b1 s >? lit 0)%js; reflexivity.
Qed.

Lemma data_accelerated (s : HousingSearch.Sim num) :
  HousingSearch.data
    (HousingSearch.accelerated interestRate monthlyPayment extraPrincipal s)
    = HousingSearch.data s.
Proof.
  unfold HousingSearch.accelerated.
  destruct (HousingSearch.b2 s >? lit 0)%js; reflexivity.
Qed.

(** After [k] passes the series holds one point for each counter below [k]
    at which the program records. *)
Lemma data_stateAfter (k : nat) :
  HousingSearch.data (stateAfter k) = map pointAt (filter recorded (seq 0 k)).
Proof.
  induction k as [| k IH]; [reflexivity|].
  rewrite seq_S, filter_app, map_app, <- IH. cbn [plus filter HousingSearch.stateAfter].
  unfold HousingSearch.month. rewrite data_accelerated, data_standard.
  unfold HousingSearch.record, HousingSearch.recorded, HousingSearch.alive.
  destruct ((k mod 12 =? 0)%nat &&
            ((HousingSearch.b1 (stateAfter k) >? lit 0)%js
             || (HousingSearch.b2 (stateAfter k) >? lit 0)%js)).
  - reflexivity.
  - cbn [map]. rewrite app_nil_r. reflexivity.
Qed.

End LoopFacts.

Section Amortization.

Variables (loanBalance interestRate monthlyPayment extraPrincipal : Q).

Abbreviation r := (HousingSearch.r (N:=exact) interestRate).
Abbreviation stateAfter :=
  (HousingSearch.stateAfter (N:=exact)
     loanBalance interestRate monthlyPayment extraPrincipal).
Abbreviation month :=
  (HousingSearch.month (N:=exact) interestRate monthlyPayment extraPrincipal).
Abbreviation simulate :=
  (HousingSearch.simulate (N:=exact)
     loanBalance interestRate monthlyPayment extraPrincipal).
Abbreviation pointAt :=
  (HousingSearch.pointAt (N:=exact)
     loanBalance interestRate monthlyPayment extraPrincipal).

(** Over the rationals the [break] test is the negation of the recording
    test. *)
Lemma paidOff_alive (s : HousingSearch.Sim Q) :
  HousingSearch.paidOff s = negb (HousingSearch.alive s).
Proof.
  unfold HousingSearch.paidOff, HousingSearch.alive. cbn [ltb leb lit exact].
  unfold Qltb.
  destruct (Qle_bool (HousingSearch.b1 s) 0), (Qle_bool (HousingSearch.b2 s) 0);
    reflexivity.
Qed.

(** One pass: a schedule with a balance counts one more month, a schedule
    without one keeps its balance. *)
Lemma month_counts (i : nat) (s : HousingSearch.Sim Q) :
  HousingSearch.months1 (month i s)
    = (if Qltb 0 (HousingSearch.b1 s) then S (HousingSearch.months1 s)
       else HousingSearch.months1 s) /\
  HousingSearch.months2 (month i s)
    = (if Qltb 0 (HousingSearch.b2 s) then S (HousingSearch.months2 s)
       else HousingSearch.months2 s) /\
  (HousingSearch.b1 s <= 0 -> HousingSearch.b1 (month i s) = HousingSearch.b1 s) /\
  (HousingSearch.b2 s <= 0 -> HousingSearch.b2 (month i s) = HousingSearch.b2 s).
Proof.
  unfold HousingSearch.month, HousingSearch.record, HousingSearch.standard,
    HousingSearch.accelerated.
  destruct ((i mod 12 =? 0)%nat && _); sim_fields;
    cbn [ltb leb lit exact]; unfold Qltb;
    destruct (Qle_bool (HousingSearch.b1 s) 0) eqn:E1;
    destruct (Qle_bool (HousingSearch.b2 s) 0) eqn:E2;
    cbn [negb]; sim_fields; unfold Qltb; rewrite ?E1, ?E2; cbn [negb];
    repeat split; try reflexivity;
    try apply Qle_bool_false in E1; try apply Qle_bool_false in E2; intros; lra.
Qed.

(** A schedule that still has a balance after [k] passes has counted [k]
    months, and no schedule counts more than the passes made. *)
Lemma months_stateAfter (k : nat) :
  (HousingSearch.months1 (stateAfter k) <= k)%nat /\
  (HousingSearch.months2 (stateAfter k) <= k)%nat /\
  (0 < HousingSearch.b1 (stateAfter k) -> HousingSearch.months1 (stateAfter k) = k) /\
  (0 < HousingSearch.b2 (stateAfter k) -> HousingSearch.months2 (stateAfter k) = k).
Proof.
  induction k as [| k (Hm1 & Hm2 & Hb1 & Hb2)].
  - cbn. repeat split; intros; lia.
  - cbn [HousingSearch.stateAfter].
    destruct (month_counts k (stateAfter k)) as (C1 & C2 & D1 & D2).
    rewrite C1, C2. unfold Qltb.
    destruct (Qle_bool (HousingSearch.b1 (stateAfter k)) 0) eqn:E1;
      destruct (Qle_bool (HousingSearch.b2 (stateAfter k)) 0) eqn:E2;
      cbn [negb];
      try (apply Qle_bool_true in E1; specialize (D1 E1); rewrite ?D1);
      try (apply Qle_bool_true in E2; specialize (D2 E2); rewrite ?D2);
      try (apply Qle_bool_false in E1; specialize (Hb1 E1));
      try (apply Qle_bool_false in E2; specialize (Hb2 E2));
      repeat split; intros; try lia; try lra.
Qed.

(** One pass keeps the accelerated schedule from falling behind. *)
Lemma month_lockstep (i : nat) (s : HousingSearch.Sim Q) :
  0 <= r -> 0 <= extraPrincipal -> lockstep s -> lockstep (month i s).
Proof.
  intros Hr He (Hb & Ht & Hm).
  assert (Hmul : HousingSearch.b2 s * r <= HousingSearch.b1 s * r)
    by (apply Qmult_le_compat_r; assumption).
  assert (Hint : HousingSearch.b1 s <= 0 \/ 0 <= HousingSearch.b1 s * r).
  { destruct (Qlt_le_dec 0 (HousingSearch.b1 s)) as [Hpos | Hneg]; [right | left; exact Hneg].
    apply Qmult_le_0_compat; lra. }
  unfold lockstep, HousingSearch.month, HousingSearch.record, HousingSearch.standard,
    HousingSearch.accelerated.
  destruct ((i mod 12 =? 0)%nat && _); sim_fields;
    q_cases; sim_fields; q_unfold; repeat split; try lia; lra.
Qed.

Lemma stateAfter_lockstep (k : nat) :
  0 <= r -> 0 <= extraPrincipal -> lockstep (stateAfter k).
Proof.
  intros Hr He. induction k as [| k IH].
  - unfold lockstep, HousingSearch.stateAfter, HousingSearch.init. sim_fields.
    q_unfold. repeat split; try lia; lra.
  - cbn [HousingSearch.stateAfter]. now apply month_lockstep.
Qed.

Lemma feasible_mortgageData :
  0 < r -> loanBalance * r < monthlyPayment ->
  HousingSearch.mortgageData (N:=exact)
    loanBalance interestRate monthlyPayment extraPrincipal
  = Some {| HousingSearch.interestSaved :=
              Qround' (HousingSearch.totalInterest1 simulate
                       - HousingSearch.totalInterest2 simulate);
            HousingSearch.timeSavedMonths :=
              Z.max 0 (Z.of_nat (HousingSearch.months1 simulate)
                       - Z.of_nat (HousingSearch.months2 simulate));
            HousingSearch.totalInterestStandard :=
              Qround' (HousingSearch.totalInterest1 simulate);
            HousingSearch.payoffYearsStandard :=
              HousingSearch.toFixed1
                (HousingSearch.tenthsOfYears (HousingSearch.months1 simulate));
            HousingSearch.payoffYearsAccelerated :=
              HousingSearch.toFixed1
                (HousingSearch.tenthsOfYears (HousingSearch.months2 simulate));
            HousingSearch.chartData := HousingSearch.data simulate |}.
Proof.
  intros Hr Hp. unfold HousingSearch.mortgageData.
  assert (H1 : (r <=? lit 0)%js = false) by (q_cases; try reflexivity; lra).
  assert (H2 : (monthlyPayment <=? loanBalance * r)%js = false)
    by (clear H1; q_cases; try reflexivity; lra).
  rewrite H1, H2. reflexivity.
Qed.

(** C9 (lockstep invariant).  For a feasible input with a non-negative extra
    principal: after every number of months of the lockstep simulation the
    accelerated balance is at most the standard balance, the accumulated
    accelerated interest at most the accumulated standard interest, and the
    accelerated month count at most the standard one; the loop is left in
    one of these states; so the result exists, its [interestSaved] is not
    negative, and the accelerated schedule takes no more months (nor tenths
    of years, as displayed) than the standard one, the months saved being
    their difference. *)
Theorem accelerated_never_behind :
  0 < r -> loanBalance * r < monthlyPayment -> 0 <= extraPrincipal ->
  (forall k : nat,
     HousingSearch.b2 (stateAfter k) <= HousingSearch.b1 (stateAfter k) /\
     HousingSearch.totalInterest2 (stateAfter k)
       <= HousingSearch.totalInterest1 (stateAfter k) /\
     (HousingSearch.months2 (stateAfter k) <= HousingSearch.months1 (stateAfter k))%nat) /\
  (exists K : nat, (1 <= K <= S HousingSearch.maxMonths)%nat /\ simulate = stateAfter K) /\
  (exists res,
     HousingSearch.mortgageData (N:=exact)
       loanBalance interestRate monthlyPayment extraPrincipal = Some res /\
     0 <= HousingSearch.interestSaved res /\
     (HousingSearch.months2 simulate <= HousingSearch.months1 simulate)%nat /\
     HousingSearch.timeSavedMonths res
       = Z.of_nat (HousingSearch.months1 simulate - HousingSearch.months2 simulate) /\
     (HousingSearch.tenthsOfYears (HousingSearch.months2 simulate)
      <= HousingSearch.tenthsOfYears (HousingSearch.months1 simulate))%nat).
Proof.
  intros Hr Hp He.
  assert (Hinv : forall k, lockstep (stateAfter k))
    by (intros k; apply stateAfter_lockstep; lra).
  destruct (loop_stateAfter loanBalance interestRate monthlyPayment extraPrincipal
              (S HousingSearch.maxMonths) 0)
    as (K & HK & Hpos & Hloop & _).
  change (HousingSearch.loop interestRate monthlyPayment extraPrincipal
            (S HousingSearch.maxMonths) 0
            (HousingSearch.stateAfter loanBalance interestRate monthlyPayment
               extraPrincipal 0))
    with simulate in Hloop.
  split; [exact Hinv|].
  split; [exists K; split; [split; [apply Hpos|]; lia | exact Hloop]|].
  eexists. split; [apply feasible_mortgageData; assumption|].
  destruct (Hinv K) as (_ & Ht & Hm). rewrite <- Hloop in Ht, Hm.
  cbn [HousingSearch.interestSaved HousingSearch.timeSavedMonths].
  repeat split.
  - apply Qround'_nonneg. lra.
  - exact Hm.
  - lia.
  - unfold HousingSearch.tenthsOfYears. apply Nat.Div0.div_le_mono. lia.
Qed.


End Amortization.

(** The lockstep theorem at work: 1000 at 12% with a payment of 600 and 100
    of extra principal. *)
Lemma accelerated_never_behind_witness :
  0 < HousingSearch.r (N:=exact) 12 /\
  1000 * HousingSearch.r (N:=exact) 12 < 600 /\
  0 <= 100 /\
  HousingSearch.b2 (HousingSearch.stateAfter (N:=exact) 1000 12 600 100 1)
    <= HousingSearch.b1 (HousingSearch.stateAfter (N:=exact) 1000 12 600 100 1) /\
  exists res,
    HousingSearch.mortgageData (N:=exact) 1000 12 600 100 = Some res /\
    0 <= HousingSearch.interestSaved res.
Proof.
  assert (H1 : 0 < HousingSearch.r (N:=exact) 12) by (vm_compute; reflexivity).
  assert (H2 : 1000 * HousingSearch.r (N:=exact) 12 < 600) by (vm_compute; reflexivity).
  assert (H3 : 0 <= 100) by (vm_compute; discriminate).
  destruct (@accelerated_never_behind 1000 12 600 100 H1 H2 H3)
    as (Hinv & _ & res & Hres & Hsaved & _).
  split; [exact H1|]. split; [exact H2|]. split; [exact H3|].
  split; [exact (proj1 (Hinv 1%nat))|].
  exists res. split; [exact Hres | exact Hsaved].
Defined.


